(** * EMG signal pipeline: biquad filters, synthetic generator, ring buffers

    A shallow embedding of the signal-processing core of the repository
    ([src/Filter.h], [src/Filter.cpp], [src/EMGProcessingSimulation.cpp] and
    the notch stage of [src/Wave_Processing.cpp]) together with the
    properties its design document states about it.

    C++ [float] is IEEE-754 binary32 and [double] is binary64; both are
    modelled with the Standard Library's [spec_float] and its correctly
    rounded operations.  The C mathematical library and the pseudo random
    generator are not part of the repository: they are interfaces
    ([Libm], [Rng]) every definition is parametrised by. *)

From Stdlib Require Import ZArith Bool String Reals Lra.
From Stdlib Require Import SpecFloat.
From stdpp Require Import base tactics option list.

(** ** IEEE-754 arithmetic at the two precisions the code uses *)

Module IEEE.

(** A value of either format; which one is meant is fixed by the
    operation applied to it, as in the C++ type system. *)
Definition float := spec_float.
Definition double := spec_float.

Definition NaN : spec_float := S754_nan.
Definition pos_zero : spec_float := S754_zero false.
Definition pos_inf : spec_float := S754_infinity false.

(** Rounding of a value to the format with precision [prec] and largest
    exponent [emax] (round to nearest, ties to even).  Zeros, infinities
    and NaN are kept. *)
Definition round_to (prec emax : Z) (x : spec_float) : spec_float :=
  match x with
  | S754_finite s m e => binary_round prec emax s m e
  | _ => x
  end.

(** binary32: 24 bits of precision, exponent of the infinities 128. *)
Definition f_add : float -> float -> float := SFadd 24 128.
Definition f_sub : float -> float -> float := SFsub 24 128.
Definition f_mul : float -> float -> float := SFmul 24 128.
Definition f_div : float -> float -> float := SFdiv 24 128.
Definition f_neg : float -> float := SFopp.
Definition f_abs : float -> float := SFabs.
Definition f_ltb : float -> float -> bool := SFltb.
Definition f_eqb : float -> float -> bool := SFeqb.
Definition f_of_Z (z : Z) : float := binary_normalize 24 128 z 0 false.

(** binary64: 53 bits of precision, exponent of the infinities 1024. *)
Definition d_add : double -> double -> double := SFadd 53 1024.
Definition d_sub : double -> double -> double := SFsub 53 1024.
Definition d_mul : double -> double -> double := SFmul 53 1024.
Definition d_div : double -> double -> double := SFdiv 53 1024.
Definition d_neg : double -> double := SFopp.
Definition d_sqrt : double -> double := SFsqrt 53 1024.

(** The implicit conversions of C++: a [float] operand of a [double]
    operation is promoted (exactly), a [double] assigned to a [float]
    variable is rounded. *)
Definition to_double (x : float) : double := round_to 53 1024 x.
Definition to_float (x : double) : float := round_to 24 128 x.

(** [std::isnan], [std::isinf] and their complement. *)
Definition isnan (x : spec_float) : bool :=
  match x with S754_nan => true | _ => false end.
Definition isinf (x : spec_float) : bool :=
  match x with S754_infinity _ => true | _ => false end.
Definition is_finite (x : spec_float) : bool :=
  match x with S754_zero _ | S754_finite _ _ _ => true | _ => false end.
(** [x == 0.0f]: either signed zero. *)
Definition is_zero (x : spec_float) : bool :=
  match x with S754_zero _ => true | _ => false end.

(** Decimal literals with an [f] suffix: the binary32 value nearest to
    the quotient of two small integers. *)
Definition f_lit (num den : Z) : float := f_div (f_of_Z num) (f_of_Z den).

End IEEE.
Import IEEE.

(** ** The arithmetic a biquad section is written over

    [Filter::process] and the normalisation step of the constructor use
    only the four field operations on the sample type.  They are written
    once over this interface, with the code's binary32 instance and an
    exact instance on the real numbers to compare representations. *)

Class Arith (F : Type) := {
  add : F -> F -> F;
  sub : F -> F -> F;
  mul : F -> F -> F;
  div : F -> F -> F;
  zero : F;
  one : F
}.

Declare Scope arith_scope.
Delimit Scope arith_scope with A.
Infix "+" := add : arith_scope.
Infix "-" := sub : arith_scope.
Infix "*" := mul : arith_scope.
Infix "/" := div : arith_scope.

#[export] Instance float_arith : Arith spec_float := {
  add := f_add; sub := f_sub; mul := f_mul; div := f_div;
  zero := pos_zero; one := f_of_Z 1
}.

Definition real_arith : Arith R := {|
  add := Rplus; sub := Rminus; mul := Rmult; div := Rdiv;
  zero := 0%R; one := 1%R
|}.

(** ** The biquad filter of [Filter.h] / [Filter.cpp] *)

Inductive FilterType := HighPass | BandPass | LowPass.

Record Filter (F : Type) := mkFilter {
  b0 : F; b1 : F; b2 : F;       (* feedforward coefficients *)
  a0 : F; a1 : F; a2 : F;       (* feedback coefficients *)
  x1 : F; x2 : F; y1 : F; y2 : F (* delay lines *)
}.
Arguments mkFilter {F}.
Arguments b0 {F}.
Arguments b1 {F}.
Arguments b2 {F}.
Arguments a0 {F}.
Arguments a1 {F}.
Arguments a2 {F}.
Arguments x1 {F}.
Arguments x2 {F}.
Arguments y1 {F}.
Arguments y2 {F}.

Section Biquad.
Context {F : Type} {ar : Arith F}.
Local Open Scope arith_scope.

(** Assignments to single members of the object. *)
Definition set_b0 (f : Filter F) (v : F) := mkFilter v (b1 f) (b2 f) (a0 f) (a1 f) (a2 f) (x1 f) (x2 f) (y1 f) (y2 f).
Definition set_b1 (f : Filter F) (v : F) := mkFilter (b0 f) v (b2 f) (a0 f) (a1 f) (a2 f) (x1 f) (x2 f) (y1 f) (y2 f).
Definition set_b2 (f : Filter F) (v : F) := mkFilter (b0 f) (b1 f) v (a0 f) (a1 f) (a2 f) (x1 f) (x2 f) (y1 f) (y2 f).
Definition set_a0 (f : Filter F) (v : F) := mkFilter (b0 f) (b1 f) (b2 f) v (a1 f) (a2 f) (x1 f) (x2 f) (y1 f) (y2 f).
Definition set_a1 (f : Filter F) (v : F) := mkFilter (b0 f) (b1 f) (b2 f) (a0 f) v (a2 f) (x1 f) (x2 f) (y1 f) (y2 f).
Definition set_a2 (f : Filter F) (v : F) := mkFilter (b0 f) (b1 f) (b2 f) (a0 f) (a1 f) v (x1 f) (x2 f) (y1 f) (y2 f).
Definition set_x1 (f : Filter F) (v : F) := mkFilter (b0 f) (b1 f) (b2 f) (a0 f) (a1 f) (a2 f) v (x2 f) (y1 f) (y2 f).
Definition set_x2 (f : Filter F) (v : F) := mkFilter (b0 f) (b1 f) (b2 f) (a0 f) (a1 f) (a2 f) (x1 f) v (y1 f) (y2 f).
Definition set_y1 (f : Filter F) (v : F) := mkFilter (b0 f) (b1 f) (b2 f) (a0 f) (a1 f) (a2 f) (x1 f) (x2 f) v (y2 f).
Definition set_y2 (f : Filter F) (v : F) := mkFilter (b0 f) (b1 f) (b2 f) (a0 f) (a1 f) (a2 f) (x1 f) (x2 f) (y1 f) v.

(** [Filter::process] (Filter.cpp, lines 67-77): the difference equation
    on the current members, then the four assignments to the delay
    lines in the order of the source.  Returns the output and the
    object after the call. *)
Definition process (f : Filter F) (input : F) : F * Filter F :=
  let output :=
    b0 f * input + b1 f * x1 f + b2 f * x2 f - a1 f * y1 f - a2 f * y2 f in
  let f := set_x2 f (x1 f) in
  let f := set_x1 f input in
  let f := set_y2 f (y1 f) in
  let f := set_y1 f output in
  (output, f).

(** The end of the constructor (Filter.cpp, lines 58-64):
    [b0 /= a0; b1 /= a0; b2 /= a0; a1 /= a0; a2 /= a0; a0 = 1.0f]. *)
Definition normalize (f : Filter F) : Filter F :=
  let f := set_b0 f (b0 f / a0 f) in
  let f := set_b1 f (b1 f / a0 f) in
  let f := set_b2 f (b2 f / a0 f) in
  let f := set_a1 f (a1 f / a0 f) in
  let f := set_a2 f (a2 f / a0 f) in
  let f := set_a0 f one in
  f.

(** A stage fed a whole stream: the outputs in order and the final
    object. *)
Fixpoint process_all (f : Filter F) (inputs : list F) : list F * Filter F :=
  match inputs with
  | [] => ([], f)
  | input :: rest =>
      let '(output, f) := process f input in
      let '(outputs, f) := process_all f rest in
      (output :: outputs, f)
  end.

(** The body shared by the free-standing stage functions of
    [Wave_Processing.cpp] that keep their coefficients unnormalised: the
    statement of [notch_filter] at lines 161-168,
    [output = (b0*input + b1*x1 + b2*x2 - a1*y1 - a2*y2) / a0], followed
    by the same four assignments.  The object stands for the locals
    [a0 .. b2] and the four references [x1 .. y2]. *)
Definition process_unnormalized (f : Filter F) (input : F) : F * Filter F :=
  let output :=
    (b0 f * input + b1 f * x1 f + b2 f * x2 f - a1 f * y1 f - a2 f * y2 f)
    / a0 f in
  let f := set_x2 f (x1 f) in
  let f := set_x1 f input in
  let f := set_y2 f (y1 f) in
  let f := set_y1 f output in
  (output, f).

Fixpoint process_unnormalized_all (f : Filter F) (inputs : list F)
  : list F * Filter F :=
  match inputs with
  | [] => ([], f)
  | input :: rest =>
      let '(output, f) := process_unnormalized f input in
      let '(outputs, f) := process_unnormalized_all f rest in
      (output :: outputs, f)
  end.

(** The six coefficient members, the part of the object [process] is
    not meant to touch. *)
Definition coefficients (f : Filter F) : F * F * F * F * F * F :=
  (b0 f, b1 f, b2 f, a0 f, a1 f, a2 f).

(** The four delay-line members. *)
Definition delay_lines (f : Filter F) : F * F * F * F :=
  (x1 f, x2 f, y1 f, y2 f).

End Biquad.

(** ** The C library and the random source *)

(** The functions of [<cmath>] the code calls.  The calls are unqualified
    ([sin(omega)], not [std::sin(omega)]), so with the g++ toolchain the
    repository builds with they name the C functions on [double]: the
    arguments are promoted, and a result stored in a [float] variable is
    rounded by the assignment.  [sqrt] is the correctly rounded [d_sqrt]. *)
Class Libm := {
  c_sin : double -> double;
  c_cos : double -> double;
  c_sinh : double -> double;
  c_log : double -> double
}.

(** [std::uniform_real_distribution<float>(a, b)] applied to the engine:
    one draw, and the engine after it. *)
Class Rng (G : Type) := {
  uniform_real : float -> float -> G -> float * G
}.

Declare Scope double_scope.
Delimit Scope double_scope with D.
Infix "+" := d_add : double_scope.
Infix "-" := d_sub : double_scope.
Infix "*" := d_mul : double_scope.
Infix "/" := d_div : double_scope.

(** [#define PI 3.14159265358979323846]: a [double] literal, the binary64
    value 0x400921FB54442D18. *)
Definition PI : double := S754_finite false 7074237752028440 (-51).

Definition two : float := f_of_Z 2.

(** ** Construction of a filter (Filter.cpp, lines 8-65) *)

Section Construction.
Context {lm : Libm}.

(** The [switch] of the constructor: the members after line 10
    ([x1 = x2 = y1 = y2 = 0.0f]) and the case of [type], before the
    normalisation.  [FilterType] has three enumerators, so the [default]
    branch is never taken and is left out. *)
Definition Filter_switch (type : FilterType)
    (sample_rate freq1 freq2 q : float) : Filter float :=
  match type with
  | HighPass =>
      let omega :=
        to_float (to_double two * PI * to_double freq1 / to_double sample_rate)%D in
      let alpha :=
        to_float (c_sin (to_double omega) / to_double (two * q)%A)%D in
      mkFilter
        (to_float ((to_double one + c_cos (to_double omega)) / to_double two)%D)
        (to_float (d_neg (to_double one + c_cos (to_double omega))%D))
        (to_float ((to_double one + c_cos (to_double omega)) / to_double two)%D)
        (one + alpha)%A
        (to_float (to_double (f_neg two) * c_cos (to_double omega))%D)
        (one - alpha)%A
        zero zero zero zero
  | BandPass =>
      let wc :=
        to_float (to_double two * PI * d_sqrt (to_double (freq1 * freq2)%A)
                  / to_double sample_rate)%D in
      let bw :=
        to_float (to_double two * PI * to_double (freq2 - freq1)%A
                  / to_double sample_rate)%D in
      let alpha :=
        to_float (c_sin (to_double bw)
                  * c_sinh (c_log (to_double two) / to_double two
                            * to_double one * PI / to_double two))%D in
      let cosw := to_float (c_cos (to_double wc)) in
      mkFilter
        alpha
        zero
        (f_neg alpha)
        (one + alpha)%A
        (f_neg two * cosw)%A
        (one - alpha)%A
        zero zero zero zero
  | LowPass =>
      let omega :=
        to_float (to_double two * PI * to_double freq1 / to_double sample_rate)%D in
      let alpha :=
        to_float (c_sin (to_double omega) / to_double (two * q)%A)%D in
      mkFilter
        (to_float ((to_double one - c_cos (to_double omega)) / to_double two)%D)
        (to_float (to_double one - c_cos (to_double omega))%D)
        (to_float ((to_double one - c_cos (to_double omega)) / to_double two)%D)
        (one + alpha)%A
        (to_float (to_double (f_neg two) * c_cos (to_double omega))%D)
        (one - alpha)%A
        zero zero zero zero
  end.

(** [Filter::Filter(type, sample_rate, freq1, freq2, q)]. *)
Definition Filter_new (type : FilterType)
    (sample_rate freq1 freq2 q : float) : Filter float :=
  normalize (Filter_switch type sample_rate freq1 freq2 q).

(** How a call of the constructor can end in C++.  The body has no
    [throw] and calls nothing that throws, so it always returns. *)
Inductive construction :=
  | Constructed (f : Filter float)
  | ConfigurationError (what : string).

Definition Filter_construct (type : FilterType)
    (sample_rate freq1 freq2 q : float) : construction :=
  Constructed (Filter_new type sample_rate freq1 freq2 q).

(** [float rectify(float input)]: [std::abs]. *)
Definition rectify (input : float) : float := f_abs input.

(** ** The notch stage of [Wave_Processing.cpp] (lines 150-169) *)

(** The locals of [notch_filter] for the constants [NOTCH_FREQ],
    [NOTCH_Q] and [SAMPLE_RATE], with the four references it is passed:
    [b0 = b2 = 1], [b1 = a1 = -2 cos omega], [a0 = 1 + alpha],
    [a2 = 1 - alpha]. *)
Definition notch_locals (notch_freq notch_q sample_rate : float)
    (d : float * float * float * float) : Filter float :=
  let '(x1, x2, y1, y2) := d in
  let omega :=
    to_float (to_double two * PI * to_double notch_freq / to_double sample_rate)%D in
  let alpha :=
    to_float (c_sin (to_double omega) / to_double (two * notch_q)%A)%D in
  mkFilter
    one
    (to_float (to_double (f_neg two) * c_cos (to_double omega))%D)
    one
    (one + alpha)%A
    (to_float (to_double (f_neg two) * c_cos (to_double omega))%D)
    (one - alpha)%A
    x1 x2 y1 y2.

(** [notch_filter(input, x1, x2, y1, y2)]: the output and the referenced
    variables after the call. *)
Definition notch_filter (notch_freq notch_q sample_rate : float)
    (input : float) (d : float * float * float * float)
  : float * (float * float * float * float) :=
  let '(output, f) :=
    process_unnormalized (notch_locals notch_freq notch_q sample_rate d) input in
  (output, delay_lines f).

End Construction.

(** ** Ring history buffers

    The buffers are [std::vector<float>] of [BUFFER_SIZE] elements that
    share the cursor [buffer_index]; the cursor is an [int] that stays in
    [0, BUFFER_SIZE), where [%] is the remainder of natural numbers. *)

Section Ring.
Context {A : Type} `{!Inhabited A}.
Variable N : nat.

(** [signal[buffer_index] = v] (main, lines 294-296).  A store outside
    the vector would be undefined behaviour; the cursor never leaves it. *)
Definition ring_store (signal : list A) (buffer_index : nat) (v : A) : list A :=
  <[buffer_index := v]> signal.

(** [buffer_index = (buffer_index + 1) % BUFFER_SIZE] (main, line 298). *)
Definition ring_advance (buffer_index : nat) : nat :=
  (buffer_index + 1) mod N.

(** One tick on one channel. *)
Definition ring_push (r : list A * nat) (v : A) : list A * nat :=
  (ring_store r.1 r.2 v, ring_advance r.2).

(** The reads of [render_signals] (lines 154-157), in the order of the
    loop: [signal[(buffer_index + i) % BUFFER_SIZE]] for
    [i = 0 .. BUFFER_SIZE - 1]. *)
Definition snapshot (r : list A * nat) : list A :=
  (fun i => r.1 !!! ((r.2 + i) mod N)) <$> seq 0 N.

(** Several ticks on one channel, oldest value first. *)
Definition ring_push_all (r : list A * nat) (pushed : list A) : list A * nat :=
  foldl ring_push r pushed.

End Ring.

(** ** The program [EMGProcessingSimulation.cpp] *)

#[export] Instance float_inhabited : Inhabited spec_float := populate pos_zero.

Definition SAMPLE_RATE : float := f_of_Z 2000.
Definition TIME_STEP : float := (one / SAMPLE_RATE)%A.
Definition BUFFER_SIZE : nat := 1000.
Definition EMG_FREQ : float := f_of_Z 20.
Definition NOISE_AMPLITUDE : float := f_lit 2 10.
Definition POWER_LINE_FREQ : float := f_of_Z 3.
Definition POWER_LINE_AMPLITUDE : float := f_of_Z 1.
Definition BANDPASS_LOW : float := f_of_Z 5.
Definition BANDPASS_HIGH : float := f_of_Z 50.
Definition LOWPASS_CUTOFF : float := f_of_Z 2.

(** The function-local [static] variables of [generate_emg_signal]. *)
Record GenState := mkGen {
  phase1 : float;
  phase2 : float;
  burst_factor : float;
  burst_duration : Z
}.

(** Their initialisers (lines 80-83). *)
Definition gen_init : GenState := mkGen zero zero one 0.

Section Generator.
Context {lm : Libm} {G : Type} {rng : Rng G}.

(** The five distributions of lines 39-43. *)
Definition dist : G -> float * G := uniform_real (f_neg NOISE_AMPLITUDE) NOISE_AMPLITUDE.
Definition amp_dist : G -> float * G := uniform_real (f_lit 8 10) (f_lit 12 10).
Definition freq_dist : G -> float * G := uniform_real (f_lit 9 10) (f_lit 11 10).
Definition burst_dist : G -> float * G := uniform_real zero one.
Definition burst_scale : G -> float * G := uniform_real one (f_of_Z 3).

(** Lines 85-95: the burst decision on every 50th cursor position and
    the countdown.  Returns the new [burst_factor], the new
    [burst_duration] and the engine. *)
Definition burst_update (buffer_index : nat) (factor : float) (duration : Z)
    (gen : G) : float * Z * G :=
  let '(factor, duration, gen) :=
    if (buffer_index mod 50 =? 0)%nat then
      let '(u, gen) := burst_dist gen in
      if f_ltb u (f_lit 2 10) then
        let '(scale, gen) := burst_scale gen in
        (scale, 100%Z, gen)
      else if (duration <=? 0)%Z then (one, duration, gen)
      else (factor, duration, gen)
    else (factor, duration, gen) in
  let duration := if (0 <? duration)%Z then (duration - 1)%Z else duration in
  (factor, duration, gen).

(** The value of [emg] before the check of line 113, with the statics
    and the engine after the call (lines 85-110). *)
Definition emg_computed (buffer_index : nat) (t : float) (s : GenState)
    (gen : G) : float * GenState * G :=
  let '(factor, duration, gen) :=
    burst_update buffer_index (burst_factor s) (burst_duration s) gen in
  let '(u, gen) := amp_dist gen in
  let amp1 := (f_lit 5 10 * u)%A in
  let '(u, gen) := amp_dist gen in
  let amp2 := (f_lit 3 10 * u)%A in
  let '(u, gen) := freq_dist gen in
  let freq1 := (EMG_FREQ * u)%A in
  let '(u, gen) := freq_dist gen in
  let freq2 := ((EMG_FREQ * f_lit 15 10) * u)%A in
  let ph1 :=
    to_float (to_double (phase1 s)
              + to_double two * PI * to_double freq1 * to_double TIME_STEP)%D in
  let ph2 :=
    to_float (to_double (phase2 s)
              + to_double two * PI * to_double freq2 * to_double TIME_STEP)%D in
  let emg :=
    to_float (to_double factor
              * (to_double amp1 * c_sin (to_double ph1)
                 + to_double amp2 * c_sin (to_double ph2)))%D in
  let emg :=
    to_float (to_double emg
              + to_double POWER_LINE_AMPLITUDE
                * c_sin (to_double two * PI * to_double POWER_LINE_FREQ
                         * to_double t))%D in
  let '(noise, gen) := dist gen in
  let emg := (emg + noise)%A in
  (emg, mkGen ph1 ph2 factor duration, gen).

(** [float generate_emg_signal(float t)] (lines 79-119): the check of
    lines 113-116 replaces a NaN or an infinity by [0.0f]; the warning it
    writes to [std::cerr] is not modelled. *)
Definition generate_emg_signal (buffer_index : nat) (t : float) (s : GenState)
    (gen : G) : float * GenState * G :=
  let '(emg, s, gen) := emg_computed buffer_index t s gen in
  if isnan emg || isinf emg then (zero, s, gen) else (emg, s, gen).

(** *** The main loop *)

Inductive Key := KEY_SPACE | KEY_UP | KEY_DOWN | KEY_OTHER.
Inductive Action := PRESS | RELEASE | REPEAT.

(** The globals of the program and the locals of [main] that live across
    loop iterations. *)
Record Sim := mkSim {
  adjustable_highpass_cutoff : float;
  is_paused : bool;
  raw_signal : list float;
  filtered_signal : list float;
  envelope_signal : list float;
  buffer_index : nat;
  statics : GenState;
  gen : G;
  highPassFilter : Filter float;
  bandPassFilter : Filter float;
  lowPassFilter : Filter float;
  t : float;
  last_highpass_cutoff : float
}.


(** [std::max(a, b)]: [(a < b) ? b : a]. *)
Definition f_max (a b : float) : float := if f_ltb a b then b else a.

(** [key_callback] (lines 49-65), console output left out. *)
Definition key_callback (s : Sim) (key : Key) (action : Action) : Sim :=
  let paused :=
    match key, action with
    | KEY_SPACE, PRESS => negb (is_paused s)
    | _, _ => is_paused s
    end in
  let cutoff :=
    match action with
    | PRESS | REPEAT =>
        let c := adjustable_highpass_cutoff s in
        let c := match key with KEY_UP => (c + f_lit 5 10)%A | _ => c end in
        match key with
        | KEY_DOWN => f_max one (c - f_lit 5 10)%A
        | _ => c
        end
    | RELEASE => adjustable_highpass_cutoff s
    end in
  mkSim cutoff paused (raw_signal s) (filtered_signal s) (envelope_signal s)
        (buffer_index s) (statics s) (gen s)
        (highPassFilter s) (bandPassFilter s) (lowPassFilter s)
        (t s) (last_highpass_cutoff s).

(** Lines 279-284: the high-pass stage is replaced when the cutoff
    differs from the one it was built with. *)
Definition reconfigure (s : Sim) : Sim :=
  if negb (f_eqb (adjustable_highpass_cutoff s) (last_highpass_cutoff s)) then
    mkSim (adjustable_highpass_cutoff s) (is_paused s)
          (raw_signal s) (filtered_signal s) (envelope_signal s)
          (buffer_index s) (statics s) (gen s)
          (Filter_new HighPass SAMPLE_RATE (adjustable_highpass_cutoff s) zero one)
          (bandPassFilter s) (lowPassFilter s)
          (t s) (adjustable_highpass_cutoff s)
  else s.

(** Lines 286-310: one tick of the cascade and the stores into the three
    buffers, skipped while paused. *)
Definition update (s : Sim) : Sim :=
  if is_paused s then s
  else
    let '(raw, st, g) :=
      generate_emg_signal (buffer_index s) (t s) (statics s) (gen s) in
    let '(highpassed, hp) := process (highPassFilter s) raw in
    let '(bandpass_filtered, bp) := process (bandPassFilter s) highpassed in
    let rectified := rectify bandpass_filtered in
    let '(enveloped, lp) := process (lowPassFilter s) rectified in
    mkSim (adjustable_highpass_cutoff s) (is_paused s)
          (ring_store (raw_signal s) (buffer_index s) raw)
          (ring_store (filtered_signal s) (buffer_index s) bandpass_filtered)
          (ring_store (envelope_signal s) (buffer_index s) enveloped)
          (ring_advance BUFFER_SIZE (buffer_index s))
          st g hp bp lp
          (t s + TIME_STEP)%A
          (last_highpass_cutoff s).

(** [glfwPollEvents()] (line 314): the pending key events are delivered
    to the callback, one after the other. *)
Definition poll_events (s : Sim) (events : list (Key * Action)) : Sim :=
  foldl (fun s e => key_callback s e.1 e.2) s events.

(** One iteration of the [while] loop of [main]; [render_signals] only
    reads. *)
Definition loop_iteration (s : Sim) (events : list (Key * Action)) : Sim :=
  poll_events (update (reconfigure s)) events.

(** [n] iterations during which no key is pressed. *)
Definition run (n : nat) (s : Sim) : Sim :=
  Nat.iter n (fun s => loop_iteration s []) s.

(** The state on entry to the loop (lines 25, 31-34, 46, 269-274). *)
Definition sim_init (g : G) : Sim :=
  let cutoff := f_of_Z 5 in
  mkSim cutoff false
        (replicate BUFFER_SIZE zero) (replicate BUFFER_SIZE zero)
        (replicate BUFFER_SIZE zero)
        0 gen_init g
        (Filter_new HighPass SAMPLE_RATE cutoff zero one)
        (Filter_new BandPass SAMPLE_RATE BANDPASS_LOW BANDPASS_HIGH one)
        (Filter_new LowPass SAMPLE_RATE LOWPASS_CUTOFF zero one)
        zero cutoff.

End Generator.
Arguments Sim G : clear implicits.

(** ** Reference instances of the two interfaces

    Used to evaluate the model on the constants the programs ship. *)

#[export] Instance spec_float_eq_dec : EqDecision spec_float.
Proof. solve_decision. Defined.

Definition dbl (m : positive) (e : Z) : double := S754_finite false m e.

(** A function known at finitely many arguments; NaN elsewhere. *)
Fixpoint tabulated (table : list (double * double)) (x : double) : double :=
  match table with
  | [] => NaN
  | (a, v) :: table => if bool_decide (a = x) then v else tabulated table x
  end.

(** Values of the C library (correctly rounded, as glibc returns them) at
    the arguments the shipped cutoff frequencies produce at 2000 Hz
    (5 Hz, 2 Hz and 10 Hz corners, and the 5-50 Hz band), and at the two
    phases of the first sample when the frequency draws are 1. *)
Definition sin_table : list (double * double) :=
  [ (dbl 4527512394661888 (-58), dbl 4527326210455264 (-58));
    (dbl 7244019616710656 (-60), dbl 7243971953064059 (-60));
    (dbl 4527512394661888 (-57), dbl 4526767685398392 (-57));
    (dbl 5093451108450304 (-55), dbl 5076501812919330 (-55));
    (dbl 4527512394661888 (-56), dbl 4524533998577045 (-56));
    (dbl 6791268323557376 (-56), dbl 6781218717947516 (-56)) ].

Definition cos_table : list (double * double) :=
  [ (dbl 4527512394661888 (-58), dbl 9006088058807199 (-53));
    (dbl 7244019616710656 (-60), dbl 9007021460331314 (-53));
    (dbl 4527512394661888 (-57), dbl 9002754745176816 (-53));
    (dbl 7158625466318848 (-57), dbl 8996089352156839 (-53)) ].

Definition log_table : list (double * double) :=
  [ (dbl 4503599627370496 (-51), dbl 6243314768165359 (-53)) ].

Definition sinh_table : list (double * double) :=
  [ (dbl 4903487952429239 (-53), dbl 5149308284890156 (-53)) ].

(** The special values are those of Annex F of the C standard:
    [sin] and [cos] of an infinity are NaN, [sin(+-0) = +-0],
    [cos(+-0) = 1], [sinh] keeps zeros and infinities. *)
Definition libm_table : Libm := {|
  c_sin x :=
    match x with
    | S754_finite _ _ _ => tabulated sin_table x
    | S754_zero _ => x
    | _ => NaN
    end;
  c_cos x :=
    match x with
    | S754_finite _ _ _ => tabulated cos_table x
    | S754_zero _ => to_double one
    | _ => NaN
    end;
  c_sinh x :=
    match x with
    | S754_finite _ _ _ => tabulated sinh_table x
    | _ => x
    end;
  c_log x :=
    match x with
    | S754_finite false _ _ => tabulated log_table x
    | S754_infinity false => x
    | S754_zero _ => S754_infinity true
    | _ => NaN
    end
|}.

(** A scripted engine: the draws are read off a list, whatever the
    bounds; an exhausted script yields the lower bound. *)
Definition scripted_rng : Rng (list float) := {|
  uniform_real a b script :=
    match script with
    | u :: script => (u, script)
    | [] => (a, [])
    end
|}.


(** ** Vocabulary of the design document *)

(** The coefficient formulas as section 4.1 of the design document words
    them, before normalisation, in the arithmetic of the code:
    [omega = 2 pi f / sampleRate], [alpha = sin omega / (2 Q)];
    high-pass [a0 = 1 + alpha], [a1 = -2 cos omega], [a2 = 1 - alpha],
    [b0 = b2 = (1 + cos omega) / 2], [b1 = -(1 + cos omega)]; low-pass the
    same [a]s, [b0 = b2 = (1 - cos omega) / 2], [b1 = 1 - cos omega];
    band-pass with centre [omega_c = 2 pi sqrt(f1 f2) / sampleRate],
    bandwidth [omega_bw = 2 pi (f2 - f1) / sampleRate] and
    [alpha = sin omega_bw * sinh(ln 2 / 2 * pi / 2)] (no [Q]),
    [a1 = -2 cos omega_c], [b0 = alpha], [b1 = 0], [b2 = -alpha]. *)
Record RawCoefficients := mkRaw {
  raw_b0 : float; raw_b1 : float; raw_b2 : float;
  raw_a0 : float; raw_a1 : float; raw_a2 : float
}.

Section DesignFormulas.
Context {lm : Libm}.

Definition spec_omega (sample_rate f : float) : float :=
  to_float (to_double two * PI * to_double f / to_double sample_rate)%D.

Definition spec_alpha (omega q : float) : float :=
  to_float (c_sin (to_double omega) / to_double (two * q)%A)%D.

Definition spec_alpha_bandpass (omega_bw : float) : float :=
  to_float (c_sin (to_double omega_bw)
            * c_sinh (c_log (to_double two) / to_double two
                      * to_double one * PI / to_double two))%D.

Definition spec_coefficients (type : FilterType)
    (sample_rate freq1 freq2 q : float) : RawCoefficients :=
  match type with
  | HighPass =>
      let omega := spec_omega sample_rate freq1 in
      let alpha := spec_alpha omega q in
      let cosw := c_cos (to_double omega) in
      let half := to_float ((to_double one + cosw) / to_double two)%D in
      mkRaw half (to_float (d_neg (to_double one + cosw)%D)) half
            (one + alpha)%A (to_float (to_double (f_neg two) * cosw)%D)
            (one - alpha)%A
  | LowPass =>
      let omega := spec_omega sample_rate freq1 in
      let alpha := spec_alpha omega q in
      let cosw := c_cos (to_double omega) in
      let half := to_float ((to_double one - cosw) / to_double two)%D in
      mkRaw half (to_float (to_double one - cosw)%D) half
            (one + alpha)%A (to_float (to_double (f_neg two) * cosw)%D)
            (one - alpha)%A
  | BandPass =>
      let omega_c :=
        to_float (to_double two * PI * d_sqrt (to_double (freq1 * freq2)%A)
                  / to_double sample_rate)%D in
      let omega_bw := spec_omega sample_rate (freq2 - freq1)%A in
      let alpha := spec_alpha_bandpass omega_bw in
      mkRaw alpha zero (f_neg alpha)
            (one + alpha)%A (f_neg two * to_float (c_cos (to_double omega_c)))%A
            (one - alpha)%A
  end.

End DesignFormulas.

(** What lines 93-95 of the generator do to the burst countdown: one
    down while it is positive. *)
Definition countdown (duration : Z) : Z :=
  if (0 <? duration)%Z then (duration - 1)%Z else duration.

(** The configurations section 7(b) of the design document does not call
    invalid: a positive sample rate, a positive Q and, for a band-pass,
    [freq1 < freq2]. *)
Definition valid_configuration (type : FilterType)
    (sample_rate freq1 freq2 q : float) : bool :=
  f_ltb zero sample_rate && f_ltb zero q
  && match type with
     | BandPass => f_ltb freq1 freq2
     | _ => true
     end.

(** No coefficient the difference equation multiplies by is a NaN or an
    infinity.  This is a condition on the constructed object, not on the
    configuration: neither follows from the other. *)
Definition finite_coefficients (f : Filter float) : Prop :=
  is_finite (b0 f) && is_finite (b1 f) && is_finite (b2 f)
  && is_finite (a1 f) && is_finite (a2 f) = true.

(** The four delay lines hold a zero. *)
Definition zero_delay_lines (f : Filter float) : Prop :=
  is_zero (x1 f) && is_zero (x2 f) && is_zero (y1 f) && is_zero (y2 f) = true.

(** * Properties of the biquad section *)

Section BiquadFacts.
Context {F : Type} {ar : Arith F}.
Local Open Scope arith_scope.

Lemma process_output (f : Filter F) (input : F) :
  (process f input).1
  = b0 f * input + b1 f * x1 f + b2 f * x2 f - a1 f * y1 f - a2 f * y2 f.
Proof. reflexivity. Qed.

Lemma process_delay_lines (f : Filter F) (input : F) :
  delay_lines (process f input).2
  = (input, x1 f, (process f input).1, y1 f).
Proof. reflexivity. Qed.

Lemma process_coefficients (f : Filter F) (input : F) :
  coefficients (process f input).2 = coefficients f.
Proof. reflexivity. Qed.

Lemma process_all_cons (f : Filter F) (input : F) (rest : list F) :
  process_all f (input :: rest)
  = ((process f input).1 :: (process_all (process f input).2 rest).1,
     (process_all (process f input).2 rest).2).
Proof.
  simpl. destruct (process_all _ rest) as [outputs f']. reflexivity.
Qed.

Lemma process_all_coefficients (inputs : list F) :
  forall f : Filter F, coefficients (process_all f inputs).2 = coefficients f.
Proof.
  induction inputs as [|input rest IH]; intros f.
  - reflexivity.
  - rewrite process_all_cons. cbn [snd]. rewrite IH.
    apply process_coefficients.
Qed.

Lemma process_all_length (inputs : list F) :
  forall f : Filter F, length (process_all f inputs).1 = length inputs.
Proof.
  induction inputs as [|input rest IH]; intros f.
  - reflexivity.
  - rewrite process_all_cons. cbn [fst length]. by rewrite IH.
Qed.

Lemma process_unnormalized_all_cons (f : Filter F) (input : F) (rest : list F) :
  process_unnormalized_all f (input :: rest)
  = ((process_unnormalized f input).1
       :: (process_unnormalized_all (process_unnormalized f input).2 rest).1,
     (process_unnormalized_all (process_unnormalized f input).2 rest).2).
Proof.
  simpl. destruct (process_unnormalized_all _ rest) as [outputs f'].
  reflexivity.
Qed.

(** C1. [Filter::process] returns
    [b0*input + b1*x1 + b2*x2 - a1*y1 - a2*y2], evaluated on the members
    as they were before the call, and leaves [x2] = old [x1],
    [x1] = [input], [y2] = old [y1], [y1] = the returned output. *)
Theorem process_difference_equation (f : Filter F) (input : F) :
  let output :=
    b0 f * input + b1 f * x1 f + b2 f * x2 f - a1 f * y1 f - a2 f * y2 f in
  let f' := (process f input).2 in
  (process f input).1 = output
  /\ x2 f' = x1 f /\ x1 f' = input /\ y2 f' = y1 f /\ y1 f' = output.
Proof. cbv zeta. repeat split. Qed.

(** C10. A call of [Filter::process] writes the delay lines only: the six
    coefficient members are the same after the call, and so after any
    number of calls. *)
Theorem process_frame_coefficients (f : Filter F) (inputs : list F) :
  (forall input : F,
     let f' := (process f input).2 in
     b0 f' = b0 f /\ b1 f' = b1 f /\ b2 f' = b2 f
     /\ a0 f' = a0 f /\ a1 f' = a1 f /\ a2 f' = a2 f)
  /\ coefficients (process_all f inputs).2 = coefficients f.
Proof.
  split.
  - intros input. cbv zeta. repeat split.
  - apply process_all_coefficients.
Qed.

End BiquadFacts.

(** * Properties of the constructor *)

Section ConstructionFacts.
Context {lm : Libm}.

Lemma Filter_new_a0 (type : FilterType) (sample_rate freq1 freq2 q : float) :
  a0 (Filter_new type sample_rate freq1 freq2 q) = one.
Proof. reflexivity. Qed.

Lemma Filter_new_delay_lines (type : FilterType)
    (sample_rate freq1 freq2 q : float) :
  delay_lines (Filter_new type sample_rate freq1 freq2 q)
  = (zero, zero, zero, zero).
Proof. destruct type; reflexivity. Qed.

(** C2. For every sample rate, corner frequencies and Q the constructor
    leaves in each coefficient member the value of the design formula
    divided by the unnormalised [a0] of that formula, and [a0] itself
    is 1. *)
Theorem Filter_new_coefficients (type : FilterType)
    (sample_rate freq1 freq2 q : float) :
  let r := spec_coefficients type sample_rate freq1 freq2 q in
  let f := Filter_new type sample_rate freq1 freq2 q in
  b0 f = (raw_b0 r / raw_a0 r)%A
  /\ b1 f = (raw_b1 r / raw_a0 r)%A
  /\ b2 f = (raw_b2 r / raw_a0 r)%A
  /\ a1 f = (raw_a1 r / raw_a0 r)%A
  /\ a2 f = (raw_a2 r / raw_a0 r)%A
  /\ a0 f = one.
Proof. destruct type; cbv zeta; repeat split. Qed.

(** C6, as the code has it.  The constructor checks nothing: whatever the
    sample rate, the frequencies and Q are, it returns an object, with
    [a0 = 1] and cleared delay lines, and never reports a configuration
    error. *)
Theorem Filter_construct_never_fails (type : FilterType)
    (sample_rate freq1 freq2 q : float) :
  exists f : Filter float,
    Filter_construct type sample_rate freq1 freq2 q = Constructed f
    /\ a0 f = one
    /\ delay_lines f = (zero, zero, zero, zero)
    /\ forall what : string,
         Filter_construct type sample_rate freq1 freq2 q
         <> ConfigurationError what.
Proof.
  exists (Filter_new type sample_rate freq1 freq2 q).
  split; [reflexivity|].
  split; [apply Filter_new_a0|].
  split; [apply Filter_new_delay_lines|].
  intros what. unfold Filter_construct. discriminate.
Qed.

End ConstructionFacts.

(** C6, refuted as stated.  A high-pass stage at the shipped 2000 Hz and
    5 Hz with the non-positive [Q = 0] is constructed without any error,
    and its feedback coefficient [a2] is a NaN. *)
Lemma Filter_construct_zero_Q_silent :
  exists f : Filter float,
    Filter_construct (lm := libm_table) HighPass SAMPLE_RATE (f_of_Z 5) zero zero
    = Constructed f
    /\ isnan (a2 f) = true.
Proof. eexists. split; [reflexivity|]. vm_compute. reflexivity. Qed.

(** * The zero stream *)

Section ZeroStream.

Lemma f_mul_finite_zero (c x : float) :
  is_finite c = true -> is_zero x = true -> is_zero (c * x)%A = true.
Proof. destruct c, x; simpl; congruence. Qed.

Lemma f_add_zero_zero (x y : float) :
  is_zero x = true -> is_zero y = true -> is_zero (x + y)%A = true.
Proof. destruct x as [[]| | |], y as [[]| | |]; simpl; congruence. Qed.

Lemma f_sub_zero_zero (x y : float) :
  is_zero x = true -> is_zero y = true -> is_zero (x - y)%A = true.
Proof. destruct x as [[]| | |], y as [[]| | |]; simpl; congruence. Qed.

Lemma finite_coefficients_process (f : Filter float) (input : float) :
  finite_coefficients f -> finite_coefficients (process f input).2.
Proof. intros H. exact H. Qed.

Lemma process_zero (f : Filter float) (input : float) :
  finite_coefficients f -> zero_delay_lines f -> is_zero input = true ->
  is_zero (process f input).1 = true /\ zero_delay_lines (process f input).2.
Proof.
  unfold finite_coefficients, zero_delay_lines.
  intros Hc Hd Hin.
  repeat rewrite andb_true_iff in Hc.
  repeat rewrite andb_true_iff in Hd.
  destruct Hc as [[[[Hb0 Hb1] Hb2] Ha1] Ha2].
  destruct Hd as [[[Hx1 Hx2] Hy1] Hy2].
  assert (Hout : is_zero (process f input).1 = true).
  { rewrite (process_output (ar := float_arith)).
    repeat first [ apply f_sub_zero_zero | apply f_add_zero_zero
                 | apply f_mul_finite_zero ]; assumption. }
  split; [exact Hout|].
  change (is_zero input && is_zero (x1 f) && is_zero (process f input).1
          && is_zero (y1 f) = true).
  by rewrite Hin, Hx1, Hout, Hy1.
Qed.

End ZeroStream.

Section ZeroStreamRuns.
Context {lm : Libm}.

Lemma process_all_zero (inputs : list float) :
  forall f : Filter float,
    finite_coefficients f -> zero_delay_lines f ->
    Forall (fun x => is_zero x = true) inputs ->
    Forall (fun y => is_zero y = true) (process_all f inputs).1.
Proof.
  induction inputs as [|input rest IH]; intros f Hc Hd Hin.
  - constructor.
  - rewrite process_all_cons. cbn [fst].
    apply Forall_cons in Hin as [Hin Hrest].
    destruct (process_zero f input Hc Hd Hin) as [Hout Hd'].
    constructor; [exact Hout|].
    apply IH; [by apply finite_coefficients_process | exact Hd' | exact Hrest].
Qed.

Lemma Filter_new_zero_delay_lines (type : FilterType)
    (sample_rate freq1 freq2 q : float) :
  zero_delay_lines (Filter_new type sample_rate freq1 freq2 q).
Proof. destruct type; reflexivity. Qed.

(** C4, as the code has it.  A filter whose constructed coefficients
    [b0], [b1], [b2], [a1], [a2] are all finite starts with cleared delay
    lines, and fed zeros, however many, it returns a zero for each of
    them. *)
Theorem zero_stream_zero_output (type : FilterType)
    (sample_rate freq1 freq2 q : float) (inputs : list float) :
  finite_coefficients (Filter_new type sample_rate freq1 freq2 q) ->
  Forall (fun x => is_zero x = true) inputs ->
  let outputs := (process_all (Filter_new type sample_rate freq1 freq2 q) inputs).1 in
  length outputs = length inputs
  /\ Forall (fun y => is_zero y = true) outputs.
Proof.
  intros Hc Hin. cbv zeta. split.
  - apply process_all_length.
  - apply process_all_zero; [exact Hc | apply Filter_new_zero_delay_lines | exact Hin].
Qed.

End ZeroStreamRuns.

(** The shipped 5 Hz high-pass stage has finite coefficients, and so its
    first five outputs on a zero stream are zeros. *)
Lemma zero_stream_shipped_highpass :
  let f := Filter_new (lm := libm_table) HighPass SAMPLE_RATE (f_of_Z 5) zero one in
  finite_coefficients f
  /\ length (process_all f (replicate 5 zero)).1 = 5
  /\ Forall (fun y => is_zero y = true) (process_all f (replicate 5 zero)).1.
Proof.
  cbv zeta.
  assert (Hc : finite_coefficients
                 (Filter_new (lm := libm_table) HighPass SAMPLE_RATE (f_of_Z 5) zero one))
    by (vm_compute; reflexivity).
  split; [exact Hc|].
  apply (zero_stream_zero_output (lm := libm_table) HighPass SAMPLE_RATE
           (f_of_Z 5) zero one (replicate 5 zero) Hc).
  repeat constructor.
Defined.

(** C4, refuted as stated.  The high-pass stage at the shipped 2000 Hz
    and 5 Hz with the positive [Q = 2^-149] is a valid configuration;
    [alpha = sin(omega) / (2 Q)] overflows to an infinity, [a2] is
    [(1 - inf) / (1 + inf)], a NaN, and the stage answers zeros with
    NaNs. *)
Lemma zero_stream_valid_configuration_nan :
  let q := S754_finite false 1 (-149) in
  let f := Filter_new (lm := libm_table) HighPass SAMPLE_RATE (f_of_Z 5) zero q in
  valid_configuration HighPass SAMPLE_RATE (f_of_Z 5) zero q = true
  /\ isnan (a2 f) = true
  /\ (process_all f [zero; zero; zero]).1 = [NaN; NaN; NaN].
Proof. cbv zeta. repeat split; vm_compute; reflexivity. Qed.

(** Finiteness is what the property rests on: the high-pass stage built
    with [Q = 0] has a NaN among its coefficients and answers a zero with
    a NaN. *)
Lemma zero_stream_needs_finite_coefficients :
  let f := Filter_new (lm := libm_table) HighPass SAMPLE_RATE (f_of_Z 5) zero zero in
  (process_all f [zero; zero; zero]).1 = [NaN; NaN; NaN].
Proof. vm_compute. reflexivity. Qed.

(** * The two representations of a normalised stage *)

Section ExactArithmetic.
Local Existing Instance real_arith.

Lemma process_unnormalized_exact (f : Filter R) (input : R) :
  a0 f <> 0%R ->
  (process_unnormalized f input).1 = (process (normalize f) input).1
  /\ normalize (process_unnormalized f input).2 = (process (normalize f) input).2.
Proof.
  intros Ha.
  assert (E : (process_unnormalized f input).1 = (process (normalize f) input).1).
  { destruct f; cbn in *. field. exact Ha. }
  split; [exact E|].
  destruct f.
  cbv [process_unnormalized process normalize set_b0 set_b1 set_b2 set_a0
       set_a1 set_a2 set_x1 set_x2 set_y1 set_y2 b0 b1 b2 a0 a1 a2 x1 x2 y1 y2
       fst snd] in *.
  f_equal. exact E.
Qed.

Lemma process_unnormalized_a0 (f : Filter R) (input : R) :
  a0 (process_unnormalized f input).2 = a0 f.
Proof. reflexivity. Qed.

(** C5, over exact arithmetic.  On the real numbers, for every set of
    unnormalised coefficients with [a0 <> 0] (the notch's among them),
    every initial delay-line content and every input sequence, dividing
    the output by [a0] at each call yields the same output sequence as the
    constructor's normalisation followed by [Filter::process]. *)
Theorem unnormalized_equals_normalized_exact (inputs : list R) (f : Filter R) :
  a0 f <> 0%R ->
  (process_unnormalized_all f inputs).1 = (process_all (normalize f) inputs).1.
Proof.
  revert f. induction inputs as [|input rest IH]; intros f Ha.
  - reflexivity.
  - rewrite process_unnormalized_all_cons, process_all_cons. cbn [fst].
    destruct (process_unnormalized_exact f input Ha) as [E1 E2].
    rewrite <- E2, <- E1. f_equal.
    apply IH. by rewrite process_unnormalized_a0.
Qed.

End ExactArithmetic.

(** A notch-shaped coefficient set ([b0 = b2 = 1], [b1 = a1 = -3/2],
    [a0 = 5/4], [a2 = 3/4]) on three samples. *)
Lemma unnormalized_equals_normalized_sample :
  let f := (mkFilter 1 (-3/2) 1 (5/4) (-3/2) (3/4) 0 0 0 0)%R in
  a0 f <> 0%R
  /\ (process_unnormalized_all (ar := real_arith) f [1; 2; -1]%R).1
     = (process_all (ar := real_arith) (normalize (ar := real_arith) f) [1; 2; -1]%R).1.
Proof.
  cbv zeta.
  assert (Ha : a0 (mkFilter 1 (-3/2) 1 (5/4) (-3/2) (3/4) 0 0 0 0)%R <> 0%R)
    by (simpl; lra).
  split; [exact Ha|].
  exact (unnormalized_equals_normalized_exact [1; 2; -1]%R
           (mkFilter 1 (-3/2) 1 (5/4) (-3/2) (3/4) 0 0 0 0)%R Ha).
Defined.

(** C5, refuted as stated.  In the binary32 arithmetic of the code the
    shipped notch (10 Hz, Q = 30, 2000 Hz) answers the single sample
    [3.0f] with 12576327 * 2^-22, and the normalised biquad built from the
    same coefficients answers with 12576328 * 2^-22. *)
Lemma notch_differs_from_normalized :
  let d := (zero, zero, zero, zero) in
  let three := f_of_Z 3 in
  let raw := notch_locals (lm := libm_table) (f_of_Z 10) (f_of_Z 30) SAMPLE_RATE d in
  (notch_filter (lm := libm_table) (f_of_Z 10) (f_of_Z 30) SAMPLE_RATE three d).1
  = S754_finite false 12576327 (-22)
  /\ (process (normalize raw) three).1 = S754_finite false 12576328 (-22)
  /\ (process_unnormalized_all raw [three]).1
     <> (process_all (normalize raw) [three]).1.
Proof.
  cbv zeta. split; [|split]; try (vm_compute; reflexivity).
  vm_compute. discriminate.
Qed.

(** * The ring buffers *)

Section RingFacts.
Context {A : Type} `{!Inhabited A}.
Variable N : nat.
Hypothesis N_pos : 0 < N.

Lemma mod_wrap_once (a : nat) : N <= a < 2 * N -> a mod N = a - N.
Proof.
  intros [H1 H2].
  replace a with ((a - N) + 1 * N) at 1 by lia.
  rewrite Nat.Div0.mod_add. apply Nat.mod_small. lia.
Qed.

Lemma ring_push_length (r : list A * nat) (v : A) :
  length (ring_push N r v).1 = length r.1.
Proof. apply length_insert. Qed.

Lemma ring_push_cursor (r : list A * nat) (v : A) : (ring_push N r v).2 < N.
Proof. apply Nat.mod_upper_bound. lia. Qed.

Lemma length_snapshot (r : list A * nat) : length (snapshot N r) = N.
Proof. unfold snapshot. by rewrite length_fmap, length_seq. Qed.

Lemma lookup_snapshot (r : list A * nat) (i : nat) :
  i < N -> snapshot N r !! i = Some (r.1 !!! ((r.2 + i) mod N)).
Proof.
  intros Hi. unfold snapshot.
  by rewrite list_lookup_fmap, lookup_seq_lt.
Qed.

Lemma lookup_snapshot_ge (r : list A * nat) (i : nat) :
  N <= i -> snapshot N r !! i = None.
Proof.
  intros Hi. apply lookup_ge_None. by rewrite length_snapshot.
Qed.

(** A tick drops the oldest value of the view and appends the new one. *)
Lemma snapshot_push (r : list A * nat) (v : A) :
  length r.1 = N -> r.2 < N ->
  snapshot N (ring_push N r v) = drop 1 (snapshot N r) ++ [v].
Proof.
  destruct r as [signal idx]. cbn [fst snd]. intros Hlen Hidx.
  apply list_eq. intros i.
  destruct (decide (i < N)) as [Hi|Hi].
  - rewrite lookup_snapshot by done.
    unfold ring_push, ring_store, ring_advance. cbn [fst snd].
    rewrite Nat.Div0.add_mod_idemp_l.
    destruct (decide (i = N - 1)) as [->|Hne].
    + rewrite lookup_app_r by (rewrite length_drop, length_snapshot; lia).
      rewrite length_drop, length_snapshot.
      replace (N - 1 - (N - 1)) with 0 by lia.
      replace (idx + 1 + (N - 1)) with (idx + N) by lia.
      rewrite mod_wrap_once by lia.
      replace (idx + N - N) with idx by lia.
      rewrite list_lookup_total_insert_eq by lia. done.
    + rewrite lookup_app_l by (rewrite length_drop, length_snapshot; lia).
      rewrite lookup_drop, lookup_snapshot by lia. cbn [fst snd].
      replace (idx + (1 + i)) with (idx + 1 + i) by lia.
      rewrite list_lookup_total_insert_ne; [done|].
      destruct (decide (idx + 1 + i < N)) as [Hs|Hs].
      * rewrite Nat.mod_small by done. lia.
      * rewrite mod_wrap_once by lia. lia.
  - rewrite lookup_snapshot_ge by lia.
    symmetry. apply lookup_ge_None.
    rewrite length_app, length_drop, length_snapshot. simpl. lia.
Qed.

Lemma ring_push_all_valid (pushed : list A) :
  forall r : list A * nat,
    length r.1 = N -> r.2 < N ->
    length (ring_push_all N r pushed).1 = N /\ (ring_push_all N r pushed).2 < N.
Proof.
  induction pushed as [|v rest IH]; intros r Hlen Hidx.
  - done.
  - apply IH; [by rewrite ring_push_length | apply ring_push_cursor].
Qed.

(** After any number of ticks the view is the tail of what it showed
    before followed by the pushed values. *)
Lemma snapshot_push_all (pushed : list A) :
  forall r : list A * nat,
    length r.1 = N -> r.2 < N ->
    snapshot N (ring_push_all N r pushed)
    = drop (length pushed) (snapshot N r ++ pushed).
Proof.
  induction pushed as [|v rest IH]; intros r Hlen Hidx.
  - cbn [ring_push_all foldl length]. by rewrite drop_0, app_nil_r.
  - change (ring_push_all N r (v :: rest))
      with (ring_push_all N (ring_push N r v) rest).
    rewrite IH by (by rewrite ?ring_push_length; try apply ring_push_cursor).
    rewrite snapshot_push by done.
    pose proof (length_snapshot r) as Hs.
    destruct (snapshot N r) as [|old view]; [simpl in Hs; lia|].
    cbn [length]. by rewrite <- app_assoc.
Qed.

(** Every position of the vector is read by the view. *)
Lemma slot_in_snapshot (r : list A * nat) (j : nat) :
  r.2 < N -> j < N ->
  exists i, i < N /\ snapshot N r !! i = Some (r.1 !!! j).
Proof.
  intros Hidx Hj.
  exists ((j + N - r.2) mod N).
  split; [apply Nat.mod_upper_bound; lia|].
  rewrite lookup_snapshot by (apply Nat.mod_upper_bound; lia).
  do 2 f_equal.
  destruct (decide (r.2 <= j)) as [Hle|Hgt].
  - replace (j + N - r.2) with (j - r.2 + N) by lia.
    rewrite (mod_wrap_once (j - r.2 + N)) by lia.
    replace (r.2 + (j - r.2 + N - N)) with j by lia.
    by apply Nat.mod_small.
  - rewrite (Nat.mod_small (j + N - r.2)) by lia.
    rewrite mod_wrap_once by lia. lia.
Qed.

(** C3. After [N + k] values were pushed into a ring of capacity [N], the
    reads at [(cursor + i) mod N], [i = 0 .. N-1], are exactly the last
    [N] pushed values from the oldest to the newest, and every position
    of the vector holds one of these last [N] values: nothing pushed more
    than [N] ticks ago can be read. *)
Theorem snapshot_last_capacity (k : nat) (signal : list A) (cursor : nat)
    (pushed : list A) :
  length signal = N -> cursor < N -> length pushed = N + k ->
  let r := ring_push_all N (signal, cursor) pushed in
  snapshot N r = drop k pushed
  /\ length (snapshot N r) = N
  /\ forall j, j < N ->
       exists t, k <= t < N + k /\ r.1 !! j = pushed !! t.
Proof.
  intros Hlen Hidx Hpushed. cbv zeta.
  assert (Hsnap : snapshot N (ring_push_all N (signal, cursor) pushed)
                  = drop k pushed).
  { rewrite snapshot_push_all by done.
    rewrite drop_app_ge by (rewrite length_snapshot; lia).
    rewrite length_snapshot. f_equal. lia. }
  destruct (ring_push_all_valid pushed (signal, cursor) Hlen Hidx)
    as [Hlen' Hidx'].
  split; [exact Hsnap|]. split; [apply length_snapshot|].
  intros j Hj.
  destruct (slot_in_snapshot (ring_push_all N (signal, cursor) pushed) j Hidx' Hj)
    as (i & Hi & Hlook).
  exists (k + i). split; [lia|].
  rewrite Hsnap, lookup_drop in Hlook. rewrite Hlook.
  apply list_lookup_lookup_total_lt. lia.
Qed.

End RingFacts.

(** A ring of three slots after five ticks shows the last three values. *)
Lemma snapshot_last_capacity_three :
  let pushed : list spec_float :=
    [f_of_Z 1; f_of_Z 2; f_of_Z 3; f_of_Z 4; f_of_Z 5] in
  let r := ring_push_all 3 (replicate 3 pos_zero, 0) pushed in
  length pushed = 3 + 2
  /\ snapshot 3 r = [f_of_Z 3; f_of_Z 4; f_of_Z 5]
  /\ length (snapshot 3 r) = 3
  /\ forall j, j < 3 ->
       exists t, 2 <= t < 3 + 2 /\ r.1 !! j = pushed !! t.
Proof.
  cbv zeta. split; [reflexivity|].
  apply (snapshot_last_capacity (A := spec_float) 3 (Nat.lt_0_succ 2) 2
           (replicate 3 pos_zero) 0
           [f_of_Z 1; f_of_Z 2; f_of_Z 3; f_of_Z 4; f_of_Z 5]).
  - reflexivity.
  - lia.
  - reflexivity.
Defined.

(** * The signal generator *)

Section GeneratorFacts.
Context {lm : Libm} {G : Type} {rng : Rng G}.

Lemma generate_emg_signal_unfold (buffer_index : nat) (t : float)
    (s : GenState) (gen : G) :
  generate_emg_signal buffer_index t s gen
  = let c := emg_computed buffer_index t s gen in
    (if isnan c.1.1 || isinf c.1.1 then zero else c.1.1, c.1.2, c.2).
Proof.
  unfold generate_emg_signal.
  destruct (emg_computed buffer_index t s gen) as [[emg s'] gen'].
  cbn [fst snd]. by destruct (isnan emg || isinf emg).
Qed.

Lemma emg_computed_burst (buffer_index : nat) (t : float)
    (s : GenState) (gen : G) :
  let r := burst_update buffer_index (burst_factor s) (burst_duration s) gen in
  let s' := (emg_computed buffer_index t s gen).1.2 in
  burst_factor s' = r.1.1 /\ burst_duration s' = r.1.2.
Proof.
  cbv zeta. unfold emg_computed.
  destruct (burst_update _ _ _ _) as [[factor duration] g0].
  repeat match goal with
         | |- context [let '(_, _) := ?d ?g in _] =>
             let u := fresh "u" in let g' := fresh "g" in
             destruct (d g) as [u g']
         end.
  done.
Qed.

(** C7. Whatever the time argument, the statics, the engine and the C
    library are, the sample [generate_emg_signal] returns is neither a
    NaN nor an infinity: it is the computed value when that is finite,
    and [0.0f] in its place otherwise; the statics and the engine advance
    as usual and nothing but a sample is returned. *)
Theorem generate_emg_signal_finite (buffer_index : nat) (t : float)
    (s : GenState) (gen : G) :
  let c := emg_computed buffer_index t s gen in
  let r := generate_emg_signal buffer_index t s gen in
  isnan r.1.1 = false /\ isinf r.1.1 = false
  /\ r.1.1 = (if is_finite c.1.1 then c.1.1 else zero)
  /\ r.1.2 = c.1.2 /\ r.2 = c.2.
Proof.
  cbv zeta. rewrite generate_emg_signal_unfold. cbv zeta. cbn [fst snd].
  by destruct (emg_computed buffer_index t s gen).1.1.
Qed.

(** C8. The burst state machine of one call, by cases on the cursor, the
    trial and the countdown.
    - Off the multiples of 50 no trial is made: the engine is not used
      and the multiplier is kept.
    - On a multiple of 50 a draw below [0.2f] takes the multiplier from a
      second draw and sets the countdown to 100, which this same call
      brings to 99.
    - A failed trial with a positive countdown keeps the multiplier.
    - A failed trial with the countdown at zero sets the multiplier to
      [1.0f].
    - In every case the countdown goes down by one when it is positive
      and is otherwise left alone.
    The statics [generate_emg_signal] leaves are those of this step. *)
Theorem burst_state_machine (buffer_index : nat) (t : float)
    (s : GenState) (gen : G) :
  let factor := burst_factor s in
  let duration := burst_duration s in
  let r := burst_update buffer_index factor duration gen in
  let trial := burst_dist gen in
  let s' := (generate_emg_signal buffer_index t s gen).1.2 in
  (burst_factor s' = r.1.1 /\ burst_duration s' = r.1.2)
  /\ (buffer_index mod 50 <> 0 -> r = (factor, countdown duration, gen))
  /\ (buffer_index mod 50 = 0 -> f_ltb trial.1 (f_lit 2 10) = true ->
      r = ((burst_scale trial.2).1, countdown 100, (burst_scale trial.2).2)
      /\ countdown 100 = 99%Z)
  /\ (buffer_index mod 50 = 0 -> f_ltb trial.1 (f_lit 2 10) = false ->
      (0 < duration)%Z ->
      r = (factor, (duration - 1)%Z, trial.2))
  /\ (buffer_index mod 50 = 0 -> f_ltb trial.1 (f_lit 2 10) = false ->
      (duration <= 0)%Z ->
      r = (one, duration, trial.2)).
Proof.
  cbv zeta.
  split.
  { rewrite generate_emg_signal_unfold. cbv zeta. cbn [fst snd].
    apply emg_computed_burst. }
  unfold burst_update, countdown.
  destruct (Nat.eqb_spec (buffer_index mod 50) 0) as [Hgrid|Hgrid].
  - split; [intros Hne; by destruct Hne|].
    destruct (burst_dist gen) as [u g1]. cbn [fst snd].
    destruct (f_ltb u (f_lit 2 10)).
    + destruct (burst_scale g1) as [scale g2]. cbn [fst snd].
      repeat split; intros; first [discriminate | reflexivity].
    + split; [intros _ Hu; discriminate Hu|].
      split; intros _ _ Hd.
      * destruct (Z.leb_spec (burst_duration s) 0); [lia|].
        destruct (Z.ltb_spec 0 (burst_duration s)); [done|lia].
      * destruct (Z.leb_spec (burst_duration s) 0); [|lia].
        destruct (Z.ltb_spec 0 (burst_duration s)); [lia|done].
  - split; [reflexivity|]. repeat split; intros; contradiction.
Qed.

End GeneratorFacts.

(** The four cases of the burst step on scripted draws: cursor 7 (no
    trial), cursor 0 with the draw 0.1 (burst of 2.5 armed), cursor 50
    with the draw 0.5 and 49 samples left (burst kept), cursor 100 with
    the draw 0.5 and nothing left (back to 1). *)
Lemma burst_state_machine_cases :
  let burst := f_lit 25 10 in
  burst_update (rng := scripted_rng) 7 burst 42 [f_lit 1 10]
  = (burst, 41%Z, [f_lit 1 10])
  /\ burst_update (rng := scripted_rng) 0 one 0 [f_lit 1 10; burst]
     = (burst, 99%Z, [])
  /\ burst_update (rng := scripted_rng) 50 burst 49 [f_lit 5 10]
     = (burst, 48%Z, [])
  /\ burst_update (rng := scripted_rng) 100 burst 0 [f_lit 5 10]
     = (one, 0%Z, []).
Proof.
  cbv zeta.
  pose (machine := burst_state_machine (lm := libm_table) (rng := scripted_rng)).
  split; [|split; [|split]].
  - apply (machine 7 zero (mkGen zero zero (f_lit 25 10) 42) [f_lit 1 10]).
    vm_compute. discriminate.
  - apply (machine 0 zero (mkGen zero zero one 0) [f_lit 1 10; f_lit 25 10]);
      vm_compute; reflexivity.
  - apply (machine 50 zero (mkGen zero zero (f_lit 25 10) 49) [f_lit 5 10]);
      vm_compute; reflexivity.
  - apply (machine 100 zero (mkGen zero zero (f_lit 25 10) 0) [f_lit 5 10]);
      vm_compute; first [reflexivity | discriminate].
Defined.

(** The first sample of a run (cursor 0, [t = 0]) when the trial draw is
    0.5, the amplitude and frequency draws are 1 and the noise draw is 0:
    the value is finite and returned as computed. *)
Lemma generate_emg_signal_first_sample :
  let script := [f_lit 5 10; one; one; one; one; zero] in
  (generate_emg_signal (lm := libm_table) (rng := scripted_rng)
     0 zero gen_init script).1.1
  = S754_finite false 16006204 (-28).
Proof. vm_compute. reflexivity. Qed.

(** The same call at [t = +infinity]: the interference term is the sine
    of an infinity, the computed value is a NaN, and [0.0f] is returned
    in its place. *)
Lemma generate_emg_signal_substitutes :
  let script := [f_lit 5 10; one; one; one; one; zero] in
  (emg_computed (lm := libm_table) (rng := scripted_rng)
     0 pos_inf gen_init script).1.1 = NaN
  /\ (generate_emg_signal (lm := libm_table) (rng := scripted_rng)
        0 pos_inf gen_init script).1.1 = zero.
Proof. split; vm_compute; reflexivity. Qed.

(** * The main loop *)

Section MainLoopFacts.
Context {lm : Libm} {G : Type} {rng : Rng G}.




(** A tick of the running program is a push on each channel. *)
Lemma update_raw_signal (s : Sim G) :
  is_paused s = false ->
  (raw_signal (update s), buffer_index (update s))
  = ring_push BUFFER_SIZE (raw_signal s, buffer_index s)
      (generate_emg_signal (buffer_index s) (t s) (statics s) (gen s)).1.1.
Proof.
  intros Hrun. unfold update. rewrite Hrun.
  rewrite generate_emg_signal_unfold. cbv zeta. done.
Qed.

Lemma reconfigure_cursor (s : Sim G) :
  is_paused (reconfigure s) = is_paused s
  /\ buffer_index (reconfigure s) = buffer_index s.
Proof.
  unfold reconfigure. by destruct (negb (f_eqb _ _)).
Qed.

Lemma update_cursor (s : Sim G) :
  is_paused s = false ->
  is_paused (update s) = false
  /\ buffer_index (update s) = (buffer_index s + 1) mod BUFFER_SIZE.
Proof.
  intros Hrun. unfold update. rewrite Hrun.
  rewrite generate_emg_signal_unfold. cbv zeta. done.
Qed.

(** While the program runs unpaused the cursor is the number of samples
    generated so far, modulo the capacity. *)
Lemma run_cursor (n : nat) (g : G) :
  is_paused (run n (sim_init g)) = false
  /\ buffer_index (run n (sim_init g)) = n mod BUFFER_SIZE.
Proof.
  induction n as [|n [IHp IHc]].
  - done.
  - change (run (S n) (sim_init g))
      with (update (reconfigure (run n (sim_init g)))).
    destruct (reconfigure_cursor (run n (sim_init g))) as [Hp Hc].
    destruct (update_cursor (reconfigure (run n (sim_init g)))) as [Hp' Hc'];
      [by rewrite Hp|].
    split; [exact Hp'|].
    rewrite Hc', Hc, IHc, Nat.Div0.add_mod_idemp_l.
    f_equal. lia.
Qed.

(** The capacity is a multiple of 50, so the cursor is on the trial grid
    exactly when the sample number is. *)
Lemma trial_grid (n : nat) : (n mod BUFFER_SIZE) mod 50 = n mod 50.
Proof.
  change BUFFER_SIZE with (50 * 20).
  rewrite Nat.Div0.mod_mul_r, (Nat.mul_comm 50), Nat.Div0.mod_add.
  apply Nat.Div0.mod_mod.
Qed.


End MainLoopFacts.
